(** * Verification of [scripts/fetch_transcript.py]

    The script takes a video identifier on its command line, asks the
    [youtube_transcript_api] library for the transcript tracks of the video,
    picks one track (English, else auto-generated English, else the first
    one), fetches its entries, reshapes each entry to a record with the keys
    [text], [duration], [offset], and prints the result as JSON.  Every
    failure is printed as [{"error": ...}] and ends the process with
    status 1.

    The embedding is shallow: Python values are an inductive type, the
    script's effects (printing, raising, [sys.exit], calls to the library)
    live in a small monad over an explicit world, and the library is a
    parameter of the script. *)

From Stdlib Require Import String List ZArith Bool Lia PrimFloat.
Import ListNotations.
Local Open Scope string_scope.
Local Open Scope list_scope.
Set Warnings "-register-all".

(** ** Python values *)

(** The values that entries and their fields can be.  A [PyDict] is a [dict]
    with string keys, kept in insertion order (its keys are distinct); a
    [PyObject] is an instance of a class that is not [dict] and defines
    neither [__getitem__] nor a JSON encoding: an attribute-bearing record
    such as the library's transcript snippet. *)
Inductive pyval : Type :=
| PyNone
| PyBool (b : bool)
| PyInt (n : Z)
| PyFloat (x : float)
| PyStr (s : string)
| PyList (items : list pyval)
| PyDict (items : list (string * pyval))
| PyObject (cls : string) (attrs : list (string * pyval)).

(** The exceptions of the script's world.  All of them derive from
    [Exception]; [SystemExit], which does not, is an outcome of its own
    below.  [TranscriptsDisabled] and [NoTranscriptFound] are the two
    library exceptions the script names, [LibraryError] stands for any other
    exception of the library (video unavailable, network failure, ...). *)
Inductive exn : Type :=
| TranscriptsDisabled (video_id : string)
| NoTranscriptFound (video_id : string) (codes : list string)
| LibraryError (description : string)
| AttributeError (obj : pyval) (name : string)
| KeyError (key : string)
| TypeError (obj : pyval)
| IndexError.

Inductive result (A : Type) : Type :=
| Ok (a : A)
| Err (e : exn).
Arguments Ok {A} a.
Arguments Err {A} e.

Definition result_bind {A B : Type} (r : result A) (k : A -> result B) : result B :=
  match r with
  | Ok a => k a
  | Err e => Err e
  end.

Notation "'let*' x ':=' r 'in' k" := (result_bind r (fun x => k))
  (at level 10, x name, r at level 100, k at level 200).

(** Lookup in the items of a [dict] or in the attributes of an object. *)
Fixpoint assoc (name : string) (items : list (string * pyval)) : option pyval :=
  match items with
  | [] => None
  | (k, v) :: rest => if String.eqb k name then Some v else assoc name rest
  end.

(** [obj.name]: only an object carries the attributes the script reads; a
    [dict], a list, a string or a number has none of [text], [duration],
    [start]. *)
Definition getattr (obj : pyval) (name : string) : result pyval :=
  match obj with
  | PyObject _ attrs =>
      match assoc name attrs with
      | Some v => Ok v
      | None => Err (AttributeError obj name)
      end
  | _ => Err (AttributeError obj name)
  end.

(** [obj[key]] with a string key: [KeyError] on a [dict] without the key,
    [TypeError] on anything that is not a mapping. *)
Definition getitem (obj : pyval) (key : string) : result pyval :=
  match obj with
  | PyDict items =>
      match assoc key items with
      | Some v => Ok v
      | None => Err (KeyError key)
      end
  | _ => Err (TypeError obj)
  end.

(** [isinstance(v, dict)] *)
Definition isinstance_dict (v : pyval) : bool :=
  match v with
  | PyDict _ => true
  | _ => false
  end.

(** A list comprehension [[f(i) for i in l]]: left to right, the first
    exception ends it. *)
Fixpoint comprehension {A B : Type} (f : A -> result B) (l : list A) : result (list B) :=
  match l with
  | [] => Ok []
  | i :: rest =>
      let* x := f i in
      let* xs := comprehension f rest in
      Ok (x :: xs)
  end.

(** ** JSON documents *)

(** What [json.dumps] writes, as the document a JSON parser reads back:
    an object keeps its members in the order the [dict] had them. *)
Inductive json : Type :=
| JNull
| JBool (b : bool)
| JInt (n : Z)
| JFloat (x : float)
| JString (s : string)
| JArray (elements : list json)
| JObject (members : list (string * json)).

(** [json.dumps(v)]: [TypeError] on a value the encoder does not know.
    The encoder is the standard library's, not the script's: it is followed
    here on the structure of the value only.  Its resource limits (an
    integer too long to print, nesting deeper than the interpreter's
    recursion limit), on which it raises too, and the text it writes for a
    number, non-finite floats included, are left out. *)
Fixpoint dumps (v : pyval) : result json :=
  match v with
  | PyNone => Ok JNull
  | PyBool b => Ok (JBool b)
  | PyInt n => Ok (JInt n)
  | PyFloat x => Ok (JFloat x)
  | PyStr s => Ok (JString s)
  | PyList items =>
      let* js :=
        (fix elements (l : list pyval) : result (list json) :=
           match l with
           | [] => Ok []
           | x :: rest =>
               let* j := dumps x in
               let* js := elements rest in
               Ok (j :: js)
           end) items in
      Ok (JArray js)
  | PyDict items =>
      let* ms :=
        (fix members (l : list (string * pyval)) : result (list (string * json)) :=
           match l with
           | [] => Ok []
           | (k, x) :: rest =>
               let* j := dumps x in
               let* ms := members rest in
               Ok ((k, j) :: ms)
           end) items in
      Ok (JObject ms)
  | PyObject _ _ => Err (TypeError v)
  end.

(** [print(json.dumps(v))] writes one line holding one document, so the
    standard output of a run is the list of the documents written. *)
Definition error_value (message : string) : pyval :=
  PyDict [("error", PyStr message)].

(** ** The transcript library *)

(** The script sees the library through four capabilities: list the tracks
    of a video, find a track by language codes (two variants), iterate over
    the tracks, and fetch the entries of a track.  Each is a call that
    returns or raises; a run of the script makes each call at most once, so
    an object is the record of what its methods answer. *)
Record Transcript : Type := {
  language_code : string;
  is_generated : bool;
  fetch : result (list pyval)
}.

Record TranscriptList : Type := {
  find_transcript : list string -> result Transcript;
  find_generated_transcript : list string -> result Transcript;
  tracks : list Transcript
}.

(** [api.list(video_id)] for the client built by [YouTubeTranscriptApi()];
    building the client contacts nobody and does not raise. *)
Definition YouTubeTranscriptApi : Type := string -> result TranscriptList.

(** The calls a run makes to the library. *)
Inductive request : Type :=
| ListTracks (video_id : string)
| FindTranscript (codes : list string)
| FindGenerated (codes : list string)
| Iterate
| Fetch (t : Transcript).

(** One call and the exception it raised, if it raised. *)
Record contact : Type := {
  asked : request;
  raised : option exn
}.

(** ** Effects *)

(** The world of a run: the documents written to standard output and the
    calls made to the library, both in order. *)
Record world : Type := {
  stdout : list json;
  requests : list contact
}.

Definition initial_world : world := {| stdout := []; requests := [] |}.

(** A statement returns, raises an exception, or raises [SystemExit]. *)
Inductive outcome (A : Type) : Type :=
| Normal (a : A)
| Raised (e : exn)
| SystemExit (code : Z).
Arguments Normal {A} a.
Arguments Raised {A} e.
Arguments SystemExit {A} code.

Definition py (A : Type) : Type := world -> outcome A * world.

Definition ret {A : Type} (a : A) : py A := fun w => (Normal a, w).

Definition bind {A B : Type} (m : py A) (k : A -> py B) : py B :=
  fun w =>
    match m w with
    | (Normal a, w') => k a w'
    | (Raised e, w') => (Raised e, w')
    | (SystemExit code, w') => (SystemExit code, w')
    end.

Declare Scope py_scope.
Delimit Scope py_scope with py.
Notation "x <- m ;; k" := (bind m (fun x => k))
  (at level 61, m at next level, right associativity) : py_scope.
Notation "m ;; k" := (bind m (fun _ => k))
  (at level 61, right associativity) : py_scope.
Local Open Scope py_scope.

(** A Python expression that may raise and touches nothing. *)
Definition lift {A : Type} (r : result A) : py A :=
  fun w =>
    match r with
    | Ok a => (Normal a, w)
    | Err e => (Raised e, w)
    end.

Definition exception_of {A : Type} (r : result A) : option exn :=
  match r with
  | Ok _ => None
  | Err e => Some e
  end.

Definition note (q : request) (e : option exn) (w : world) : world :=
  {| stdout := stdout w;
     requests := requests w ++ [{| asked := q; raised := e |}] |}.

Definition say (j : json) (w : world) : world :=
  {| stdout := stdout w ++ [j]; requests := requests w |}.

(** A call to the library: recorded, then it returns or raises. *)
Definition call {A : Type} (q : request) (r : result A) : py A :=
  fun w => lift r (note q (exception_of r) w).

Definition print (j : json) : py unit :=
  fun w => (Normal tt, say j w).

Definition sys_exit {A : Type} (code : Z) : py A :=
  fun w => (SystemExit code, w).

(** [try: body  except: handler], the bare clause: it catches everything. *)
Definition try_except_all {A : Type} (body handler : py A) : py A :=
  fun w =>
    match body w with
    | (Normal a, w') => (Normal a, w')
    | (_, w') => handler w'
    end.

(** [try: body  except Exception as e: handler]: [SystemExit] passes. *)
Definition try_except {A : Type} (body : py A) (handler : exn -> py A) : py A :=
  fun w =>
    match body w with
    | (Raised e, w') => handler e w'
    | r => r
    end.

(** ** The script *)

(** Line 28: the record built from the attributes of [i]. *)
Definition format_attr (i : pyval) : result pyval :=
  let* text := getattr i "text" in
  let* duration := getattr i "duration" in
  let* start := getattr i "start" in
  Ok (PyDict [("text", text); ("duration", duration); ("offset", start)]).

(** Line 30: the record built from the items of [i]. *)
Definition format_item (i : pyval) : result pyval :=
  let* text := getitem i "text" in
  let* duration := getitem i "duration" in
  let* start := getitem i "start" in
  Ok (PyDict [("text", text); ("duration", duration); ("offset", start)]).

(** Line 27: [data and not isinstance(data[0], dict)]. *)
Definition not_dicts (data : list pyval) : bool :=
  match data with
  | [] => false
  | first :: _ => negb (isinstance_dict first)
  end.

(** Lines 27-30: the value of [formatted]. *)
Definition formatted (data : list pyval) : result (list pyval) :=
  if not_dicts data
  then comprehension format_attr data
  else comprehension format_item data.

(** [print(json.dumps(v))] *)
Definition print_json (v : pyval) : py unit :=
  document <- lift (dumps v) ;;
  print document.

(** Lines 20-22: [for t in transcript_list: transcript = t; break], with
    [transcript] still [None] when the loop body never runs. *)
Definition first_track (transcript_list : TranscriptList) : py (option Transcript) :=
  ts <- call Iterate (Ok (tracks transcript_list)) ;;
  match ts with
  | [] => ret None
  | t :: _ => ret (Some t)
  end.

(** Lines 12-22: the value of [transcript] after the nested [try]
    statements. *)
Definition select_transcript (transcript_list : TranscriptList) : py (option Transcript) :=
  try_except_all
    (t <- call (FindTranscript ["en"]) (find_transcript transcript_list ["en"]) ;;
     ret (Some t))
    (try_except_all
       (t <- call (FindGenerated ["en"])
               (find_generated_transcript transcript_list ["en"]) ;;
        ret (Some t))
       (first_track transcript_list)).

(** What the parent process observes of a run: the documents on standard
    output, the exit status (0 when the script runs to its end, the
    argument of [sys.exit], 1 after an exception nobody caught) and that
    exception, if any; with it, the calls made to the library. *)
Record process : Type := {
  output : list json;
  contacts : list contact;
  status : Z;
  fault : option exn
}.

Section Script.

(** [str(e)], the message of an exception; the interpreter and the
    library word it. *)
Variable str : exn -> string.

(** Lines 5-42.  A transcript object is always true in [if transcript:],
    its class has neither [__bool__] nor [__len__]; [None] is false. *)
Definition get_transcript (api : YouTubeTranscriptApi) (video_id : string) : py unit :=
  try_except
    (transcript_list <- call (ListTracks video_id) (api video_id) ;;
     transcript <- select_transcript transcript_list ;;
     match transcript with
     | Some t =>
         data <- call (Fetch t) (fetch t) ;;
         rows <- lift (formatted data) ;;
         print_json (PyList rows)
     | None =>
         print_json (error_value "No transcript found") ;;
         sys_exit 1
     end)
    (fun e =>
       match e with
       | TranscriptsDisabled _ | NoTranscriptFound _ _ =>
           print_json (error_value (str e)) ;;
           sys_exit 1
       | _ =>
           print_json (error_value (str e)) ;;
           sys_exit 1
       end).

(** Lines 44-50, with [sys.argv] as [argv]. *)
Definition main (api : YouTubeTranscriptApi) (argv : list string) : py unit :=
  (if (length argv <? 2)%nat
   then print_json (error_value "No video ID provided") ;; sys_exit 1
   else ret tt) ;;
  video_id <- lift (match nth_error argv 1 with
                    | Some a => Ok a
                    | None => Err IndexError
                    end) ;;
  get_transcript api video_id.

(** The script run as a process, from an empty standard output. *)
Definition run (api : YouTubeTranscriptApi) (argv : list string) : process :=
  let (o, w) := main api argv initial_world in
  {| output := stdout w;
     contacts := requests w;
     status := match o with
               | Normal _ => 0
               | SystemExit code => code
               | Raised _ => 1
               end;
     fault := match o with
              | Raised e => Some e
              | _ => None
              end |}.

End Script.

(** ** The vocabulary of the specification *)

(** A track is English when its language code is the one the script asks
    for; it is explicit when a human wrote it, generated otherwise. *)
Definition english (t : Transcript) : bool :=
  String.eqb (language_code t) "en".

Definition explicit_english (t : Transcript) : bool :=
  english t && negb (is_generated t).

Definition generated_english (t : Transcript) : bool :=
  english t && is_generated t.

(** Modelled from the spec: the library is an external collaborator, absent
    from the sources; the spec describes it as finding a track by language
    preference, in an explicit and an auto-generated variant, among the
    tracks available for the video.  The first lookup has to return the
    explicit English track when there is one and only ever returns an
    English track (whether it may also fall back to a generated one is left
    open); the second returns the generated English track when there is one
    and only ever returns such a track. *)
Record provider_contract (tl : TranscriptList) : Prop := {
  finds_explicit :
    forall t, In t (tracks tl) -> explicit_english t = true ->
              find_transcript tl ["en"] = Ok t;
  finds_generated :
    forall t, In t (tracks tl) -> generated_english t = true ->
              find_generated_transcript tl ["en"] = Ok t;
  found_is_english :
    forall t, find_transcript tl ["en"] = Ok t ->
              In t (tracks tl) /\ english t = true;
  found_is_generated :
    forall t, find_generated_transcript tl ["en"] = Ok t ->
              In t (tracks tl) /\ generated_english t = true
}.

(** The tracks a run fetched. *)
Fixpoint fetched (log : list contact) : list Transcript :=
  match log with
  | [] => []
  | c :: rest =>
      match asked c with
      | Fetch t => t :: fetched rest
      | _ => fetched rest
      end
  end.

(** The field of an entry, read from whichever form the entry has. *)
Definition entry_field (entry : pyval) (name : string) : option pyval :=
  match entry with
  | PyDict items => assoc name items
  | PyObject _ attrs => assoc name attrs
  | _ => None
  end.

(** The normalization of one entry as the specification words it: a record
    with the keys [text], [duration], [offset], the last one taken from the
    entry's [start]. *)
Definition normalize_entry (entry : pyval) : option pyval :=
  match entry_field entry "text", entry_field entry "duration", entry_field entry "start" with
  | Some text, Some duration, Some start =>
      Some (PyDict [("text", text); ("duration", duration); ("offset", start)])
  | _, _, _ => None
  end.

Fixpoint normalize (data : list pyval) : option (list pyval) :=
  match data with
  | [] => Some []
  | entry :: rest =>
      match normalize_entry entry, normalize rest with
      | Some r, Some rs => Some (r :: rs)
      | _, _ => None
      end
  end.

(** An entry as the data model has it: its text, its duration and its
    start time. *)
Record entry : Type := {
  entry_text : pyval;
  entry_duration : pyval;
  entry_start : pyval
}.

(** The two shapes in which the library hands entries over. *)
Inductive shape : Type :=
| Mapping
| AttributeRecord.

(** The fields (items of a [dict], attributes of an object) hold the
    text, duration and start of the entry, possibly among others. *)
Definition carries (fields : list (string * pyval)) (e : entry) : Prop :=
  assoc "text" fields = Some (entry_text e) /\
  assoc "duration" fields = Some (entry_duration e) /\
  assoc "start" fields = Some (entry_start e).

(** The fetched value [v] is the entry [e] in the shape [s]. *)
Definition presents (s : shape) (v : pyval) (e : entry) : Prop :=
  match s, v with
  | Mapping, PyDict items => carries items e
  | AttributeRecord, PyObject _ attrs => carries attrs e
  | _, _ => False
  end.

(** The uniform record of an entry. *)
Definition output_record (e : entry) : pyval :=
  PyDict [("text", entry_text e); ("duration", entry_duration e);
          ("offset", entry_start e)].

(** All entries of the sequence are mappings, or none is. *)
Definition same_form (data : list pyval) : bool :=
  forallb isinstance_dict data || forallb (fun e => negb (isinstance_dict e)) data.

(** The keys of a JSON object, in order. *)
Definition keys (j : json) : option (list string) :=
  match j with
  | JObject members => Some (map fst members)
  | _ => None
  end.

Definition has_error_key (j : json) : bool :=
  match j with
  | JObject members => existsb (fun m => String.eqb (fst m) "error") members
  | _ => false
  end.

Definition is_array (j : json) : bool :=
  match j with
  | JArray _ => true
  | _ => false
  end.

Definition error_document (message : string) : json :=
  JObject [("error", JString message)].

(** The two library exceptions the script's first handler names. *)
Definition unavailable (e : exn) : bool :=
  match e with
  | TranscriptsDisabled _ | NoTranscriptFound _ _ => true
  | _ => false
  end.

(** The calls whose exceptions are not absorbed by lines 12-22: listing the
    tracks and fetching the entries. *)
Definition propagates (q : request) : bool :=
  match q with
  | ListTracks _ | Fetch _ => true
  | _ => false
  end.

(** A collection holds at most one track per language and kind, as the
    library keys its tracks. *)
Definition unique_tracks (ts : list Transcript) : Prop :=
  forall t t', In t ts -> In t' ts ->
               language_code t = language_code t' ->
               is_generated t = is_generated t' -> t = t'.

(** ** A sample library and sample videos *)

(** Lookup by language codes over a fixed collection of tracks, the way the
    library documents it: the codes in order of preference and, for each
    code, the kinds of track in the order given. *)
Definition track_of (code : string) (generated : bool) (t : Transcript) : bool :=
  String.eqb (language_code t) code && Bool.eqb (is_generated t) generated.

Fixpoint find_kind (ts : list Transcript) (code : string) (kinds : list bool) : option Transcript :=
  match kinds with
  | [] => None
  | generated :: rest =>
      match find (track_of code generated) ts with
      | Some t => Some t
      | None => find_kind ts code rest
      end
  end.

Fixpoint find_codes (ts : list Transcript) (kinds : list bool) (codes : list string) : option Transcript :=
  match codes with
  | [] => None
  | code :: rest =>
      match find_kind ts code kinds with
      | Some t => Some t
      | None => find_codes ts kinds rest
      end
  end.

Definition sample_list (video_id : string) (ts : list Transcript) : TranscriptList :=
  {| find_transcript := fun codes =>
       match find_codes ts [false; true] codes with
       | Some t => Ok t
       | None => Err (NoTranscriptFound video_id codes)
       end;
     find_generated_transcript := fun codes =>
       match find_codes ts [true] codes with
       | Some t => Ok t
       | None => Err (NoTranscriptFound video_id codes)
       end;
     tracks := ts |}.

Definition hello_item : pyval :=
  PyDict [("start", PyFloat 0.0); ("duration", PyFloat 2.5); ("text", PyStr "Hello")].

Definition hello_snippet : pyval :=
  PyObject "FetchedTranscriptSnippet"
    [("text", PyStr "Hello"); ("start", PyFloat 0.0); ("duration", PyFloat 2.5)].

Definition world_item : pyval :=
  PyDict [("text", PyStr "world"); ("start", PyFloat 2.5); ("duration", PyFloat 1.0)].

Definition hello_entry : entry :=
  {| entry_text := PyStr "Hello"; entry_duration := PyFloat 2.5; entry_start := PyFloat 0.0 |}.

Definition world_entry : entry :=
  {| entry_text := PyStr "world"; entry_duration := PyFloat 1.0; entry_start := PyFloat 2.5 |}.

Definition world_snippet : pyval :=
  PyObject "FetchedTranscriptSnippet"
    [("text", PyStr "world"); ("start", PyFloat 2.5); ("duration", PyFloat 1.0)].

Definition hello_record : json :=
  JObject [("text", JString "Hello"); ("duration", JFloat 2.5); ("offset", JFloat 0.0)].

Definition world_record : json :=
  JObject [("text", JString "world"); ("duration", JFloat 1.0); ("offset", JFloat 2.5)].

Definition en_track : Transcript :=
  {| language_code := "en"; is_generated := false; fetch := Ok [hello_item; world_item] |}.

Definition en_generated_track : Transcript :=
  {| language_code := "en"; is_generated := true; fetch := Ok [hello_snippet] |}.

Definition es_track : Transcript :=
  {| language_code := "es"; is_generated := false; fetch := Ok [hello_snippet] |}.

Definition silent_track : Transcript :=
  {| language_code := "en"; is_generated := false; fetch := Ok [] |}.

Definition blocked_track : Transcript :=
  {| language_code := "en"; is_generated := false;
     fetch := Err (NoTranscriptFound "blocked" ["en"]) |}.

(** A small catalogue of videos; any other identifier has its transcripts
    disabled. *)
Definition sample_api : YouTubeTranscriptApi :=
  fun video_id =>
    if String.eqb video_id "abc123" then
      Ok (sample_list video_id [es_track; en_track; en_generated_track])
    else if String.eqb video_id "auto" then
      Ok (sample_list video_id [es_track; en_generated_track])
    else if String.eqb video_id "spanish" then
      Ok (sample_list video_id [es_track])
    else if String.eqb video_id "silent" then
      Ok (sample_list video_id [silent_track])
    else if String.eqb video_id "blocked" then
      Ok (sample_list video_id [blocked_track])
    else if String.eqb video_id "empty" then
      Ok (sample_list video_id [])
    else Err (TranscriptsDisabled video_id).

Definition sample_str (e : exn) : string :=
  match e with
  | TranscriptsDisabled video_id => ("Subtitles are disabled for " ++ video_id)%string
  | NoTranscriptFound video_id _ => ("No transcripts were found for " ++ video_id)%string
  | LibraryError description => description
  | AttributeError _ name => ("object has no attribute '" ++ name ++ "'")%string
  | KeyError key => ("'" ++ key ++ "'")%string
  | TypeError _ => "unsupported object"
  | IndexError => "list index out of range"
  end.

(** ** The paths of the script, in closed form *)

(** The track lines 12-22 leave in [transcript]. *)
Definition selected (tl : TranscriptList) : option Transcript :=
  match find_transcript tl ["en"] with
  | Ok t => Some t
  | Err _ =>
      match find_generated_transcript tl ["en"] with
      | Ok t => Some t
      | Err _ => hd_error (tracks tl)
      end
  end.

(** The calls lines 12-22 make. *)
Definition lookups (tl : TranscriptList) : list contact :=
  match find_transcript tl ["en"] with
  | Ok _ => [{| asked := FindTranscript ["en"]; raised := None |}]
  | Err e1 =>
      {| asked := FindTranscript ["en"]; raised := Some e1 |} ::
      match find_generated_transcript tl ["en"] with
      | Ok _ => [{| asked := FindGenerated ["en"]; raised := None |}]
      | Err e2 =>
          [{| asked := FindGenerated ["en"]; raised := Some e2 |};
           {| asked := Iterate; raised := None |}]
      end
  end.

(** Lines 25-32 up to the [print]: the document of a track's entries. *)
Definition rendered (t : Transcript) : result json :=
  let* data := fetch t in
  let* rows := formatted data in
  let* js := comprehension dumps rows in
  Ok (JArray js).

Definition failed (message : string) (log : list contact) : process :=
  {| output := [error_document message]; contacts := log; status := 1; fault := None |}.

Definition succeeded (document : json) (log : list contact) : process :=
  {| output := [document]; contacts := log; status := 0; fault := None |}.

(** What a run with a video identifier amounts to. *)
Definition summary (str : exn -> string) (api : YouTubeTranscriptApi) (video_id : string) : process :=
  match api video_id with
  | Err e => failed (str e) [{| asked := ListTracks video_id; raised := Some e |}]
  | Ok tl =>
      let log := {| asked := ListTracks video_id; raised := None |} :: lookups tl in
      match selected tl with
      | None => failed "No transcript found" log
      | Some t =>
          let log' := log ++ [{| asked := Fetch t; raised := exception_of (fetch t) |}] in
          match rendered t with
          | Ok document => succeeded document log'
          | Err e => failed (str e) log'
          end
      end
  end.

(** ** The script follows its summary *)

Lemma dumps_list (rows : list pyval) :
  dumps (PyList rows) = (let* js := comprehension dumps rows in Ok (JArray js)).
Proof.
  cbn [dumps]. f_equal.
  induction rows as [|x rest IH]; cbn [comprehension]; [reflexivity|].
  rewrite IH. reflexivity.
Qed.

Lemma select_transcript_eq (tl : TranscriptList) (w : world) :
  select_transcript tl w =
  (Normal (selected tl),
   {| stdout := stdout w; requests := requests w ++ lookups tl |}).
Proof.
  unfold select_transcript, first_track, selected, lookups,
    try_except_all, bind, call, lift, ret, note.
  destruct (find_transcript tl ["en"]) as [t|e1]; cbn; [reflexivity|].
  destruct (find_generated_transcript tl ["en"]) as [t|e2]; cbn.
  - rewrite <- app_assoc. reflexivity.
  - destruct (tracks tl); cbn; rewrite <- !app_assoc; reflexivity.
Qed.

Lemma video_id_of_argv (argv : list string) (vid : string) :
  nth_error argv 1 = Some vid -> exists script rest, argv = script :: vid :: rest.
Proof.
  destruct argv as [|a [|b rest]]; cbn; intros H; try discriminate.
  injection H as ->. eauto.
Qed.

Lemma argv_cases (argv : list string) :
  (length argv < 2)%nat \/ exists vid, nth_error argv 1 = Some vid.
Proof.
  destruct argv as [|a [|b rest]]; cbn; [left; lia | left; lia | right; eauto].
Qed.

Lemma run_summary (str : exn -> string) (api : YouTubeTranscriptApi)
    (argv : list string) (vid : string) :
  nth_error argv 1 = Some vid -> run str api argv = summary str api vid.
Proof.
  intros Hv. destruct (video_id_of_argv _ _ Hv) as (script & rest & ->).
  unfold run, main, summary. cbn [length Nat.ltb Nat.leb nth_error].
  unfold get_transcript, try_except, bind at 1 2. cbn [ret lift].
  unfold bind at 1, call at 1, lift at 1.
  destruct (api vid) as [tl|e]; cbn [exception_of].
  - unfold bind at 1. rewrite select_transcript_eq.
    destruct (selected tl) as [t|].
    + unfold rendered, bind, call, print_json, bind, lift, print.
      destruct (fetch t) as [data|e]; cbn [result_bind exception_of].
      * destruct (formatted data) as [rows|e]; cbn [result_bind].
        -- rewrite dumps_list.
           destruct (comprehension dumps rows) as [js|e]; cbn; [reflexivity|].
           destruct e; reflexivity.
        -- destruct e; reflexivity.
      * destruct e; reflexivity.
    + reflexivity.
  - destruct e; reflexivity.
Qed.

Lemma run_usage (str : exn -> string) (api : YouTubeTranscriptApi) (argv : list string) :
  (length argv < 2)%nat -> run str api argv = failed "No video ID provided" [].
Proof.
  intros H. destruct argv as [|a [|b rest]]; cbn in H; try lia; reflexivity.
Qed.

(** ** Facts about the log *)

Lemma fetched_app (l1 l2 : list contact) :
  fetched (l1 ++ l2) = fetched l1 ++ fetched l2.
Proof.
  induction l1 as [|c rest IH]; cbn; [reflexivity|].
  rewrite IH. destruct (asked c); reflexivity.
Qed.

Lemma fetched_lookups (tl : TranscriptList) : fetched (lookups tl) = [].
Proof.
  unfold lookups.
  destruct (find_transcript tl ["en"]); [reflexivity|].
  destruct (find_generated_transcript tl ["en"]); reflexivity.
Qed.

(** The tracks fetched by a run with a video identifier: none, or the
    selected one. *)
Lemma fetched_summary (str : exn -> string) (api : YouTubeTranscriptApi) (vid : string) :
  fetched (contacts (summary str api vid)) =
  match api vid with
  | Ok tl => match selected tl with Some t => [t] | None => [] end
  | Err _ => []
  end.
Proof.
  unfold summary. destruct (api vid) as [tl|e]; [|reflexivity].
  destruct (selected tl) as [t|].
  - assert (H : forall log, fetched (contacts (match rendered t with
              | Ok document => succeeded document log
              | Err e => failed (str e) log end)) = fetched log)
      by (intros; destruct (rendered t); reflexivity).
    rewrite H. cbn [fetched asked app]. rewrite fetched_app, fetched_lookups.
    reflexivity.
  - cbn. apply fetched_lookups.
Qed.

(** ** Facts about normalization *)

Lemma comprehension_length {A B : Type} (f : A -> result B) (l : list A) (l' : list B) :
  comprehension f l = Ok l' -> length l' = length l.
Proof.
  revert l'. induction l as [|a rest IH]; cbn; intros l' H.
  - injection H as <-. reflexivity.
  - destruct (f a) as [b|]; cbn in H; [|discriminate].
    destruct (comprehension f rest) as [bs|]; cbn in H; [|discriminate].
    injection H as <-. cbn. f_equal. apply IH. reflexivity.
Qed.

Lemma comprehension_nth {A B : Type} (f : A -> result B) (l : list A) (l' : list B) :
  comprehension f l = Ok l' ->
  forall i a, nth_error l i = Some a ->
              exists b, f a = Ok b /\ nth_error l' i = Some b.
Proof.
  revert l'. induction l as [|x rest IH]; cbn; intros l' H i a Hi.
  - destruct i; discriminate.
  - destruct (f x) as [b|] eqn:Hx; cbn in H; [|discriminate].
    destruct (comprehension f rest) as [bs|]; cbn in H; [|discriminate].
    injection H as <-. destruct i as [|i]; cbn in Hi |- *.
    + injection Hi as <-. eauto.
    + eapply IH; eauto.
Qed.

Lemma format_attr_normalize (e r : pyval) :
  format_attr e = Ok r <-> isinstance_dict e = false /\ normalize_entry e = Some r.
Proof.
  unfold format_attr, normalize_entry, getattr, entry_field.
  destruct e; cbn; try (split; [discriminate | intros [_ H]; discriminate]).
  - split; [discriminate | intros [H _]; discriminate].
  - destruct (assoc "text" attrs), (assoc "duration" attrs), (assoc "start" attrs);
      cbn; split; try discriminate; try (intros [_ H]; discriminate).
    + intros H; injection H as <-; auto.
    + intros [_ H]; injection H as <-; reflexivity.
Qed.

Lemma format_item_normalize (e r : pyval) :
  format_item e = Ok r <-> isinstance_dict e = true /\ normalize_entry e = Some r.
Proof.
  unfold format_item, normalize_entry, getitem, entry_field.
  destruct e; cbn; try (split; [discriminate | intros [H _]; discriminate]).
  destruct (assoc "text" items), (assoc "duration" items), (assoc "start" items);
    cbn; split; try discriminate; try (intros [_ H]; discriminate).
  - intros H; injection H as <-; auto.
  - intros [_ H]; injection H as <-; reflexivity.
Qed.

Lemma formatted_nth (data rows : list pyval) :
  formatted data = Ok rows ->
  forall i e, nth_error data i = Some e ->
              exists r, normalize_entry e = Some r /\ nth_error rows i = Some r.
Proof.
  unfold formatted. intros H i e Hi.
  destruct (not_dicts data);
    destruct (comprehension_nth _ _ _ H i e Hi) as (r & Hr & Hn); exists r; split; auto.
  - apply format_attr_normalize in Hr. tauto.
  - apply format_item_normalize in Hr. tauto.
Qed.

Lemma formatted_length (data rows : list pyval) :
  formatted data = Ok rows -> length rows = length data.
Proof.
  unfold formatted. destruct (not_dicts data); apply comprehension_length.
Qed.

Lemma normalize_entry_keys (e r : pyval) (j : json) :
  normalize_entry e = Some r -> dumps r = Ok j ->
  keys j = Some ["text"; "duration"; "offset"].
Proof.
  unfold normalize_entry.
  destruct (entry_field e "text"), (entry_field e "duration"), (entry_field e "start");
    try discriminate.
  intros H; injection H as <-. cbn.
  destruct (dumps p), (dumps p0), (dumps p1); cbn; try discriminate.
  intros H; injection H as <-. reflexivity.
Qed.

Lemma comprehension_items (data records : list pyval) :
  forallb isinstance_dict data = true -> normalize data = Some records ->
  comprehension format_item data = Ok records.
Proof.
  revert records. induction data as [|e rest IH]; cbn; intros records Hd Hn.
  - injection Hn as <-. reflexivity.
  - apply andb_prop in Hd as [He Hrest].
    destruct (normalize_entry e) as [r|] eqn:Hr; [|discriminate].
    destruct (normalize rest) as [rs|]; [|discriminate].
    injection Hn as <-.
    rewrite (proj2 (format_item_normalize e r) (conj He Hr)). cbn.
    rewrite (IH rs Hrest eq_refl). reflexivity.
Qed.

Lemma comprehension_attrs (data records : list pyval) :
  forallb (fun e => negb (isinstance_dict e)) data = true -> normalize data = Some records ->
  comprehension format_attr data = Ok records.
Proof.
  revert records. induction data as [|e rest IH]; cbn; intros records Hd Hn.
  - injection Hn as <-. reflexivity.
  - apply andb_prop in Hd as [He Hrest]. apply negb_true_iff in He.
    destruct (normalize_entry e) as [r|] eqn:Hr; [|discriminate].
    destruct (normalize rest) as [rs|]; [|discriminate].
    injection Hn as <-.
    rewrite (proj2 (format_attr_normalize e r) (conj He Hr)). cbn.
    rewrite (IH rs Hrest eq_refl). reflexivity.
Qed.

(** ** Facts about whole runs *)

Lemma rendered_ok (t : Transcript) (document : json) :
  rendered t = Ok document ->
  exists data rows js,
    fetch t = Ok data /\ formatted data = Ok rows /\
    comprehension dumps rows = Ok js /\ document = JArray js.
Proof.
  unfold rendered. intros H.
  destruct (fetch t) as [data|] eqn:Hf; cbn in H; [|discriminate].
  destruct (formatted data) as [rows|] eqn:Hr; cbn in H; [|discriminate].
  destruct (comprehension dumps rows) as [js|] eqn:Hj; cbn in H; [|discriminate].
  injection H as <-. exists data, rows, js. auto.
Qed.

Lemma rendered_fetch_error (t : Transcript) (e : exn) :
  fetch t = Err e -> rendered t = Err e.
Proof. unfold rendered. intros ->. reflexivity. Qed.

(** Every run ends in one of two shapes: one array and status 0 after the
    selected track rendered, or one error object and status 1. *)
Lemma run_shape (str : exn -> string) (api : YouTubeTranscriptApi) (argv : list string) :
  (exists message log, run str api argv = failed message log) \/
  (exists t document log,
      rendered t = Ok document /\
      run str api argv = succeeded document (log ++ [{| asked := Fetch t; raised := None |}]) /\
      fetched log = []).
Proof.
  destruct (argv_cases argv) as [Hu | [vid Hv]].
  - left. rewrite (run_usage _ _ _ Hu). eauto.
  - rewrite (run_summary _ _ _ _ Hv). unfold summary.
    destruct (api vid) as [tl|e]; [|left; eauto].
    destruct (selected tl) as [t|]; [|left; eauto].
    destruct (rendered t) as [document|e] eqn:Hr; [|left; eauto].
    right. exists t, document. eexists. split; [exact Hr|].
    destruct (rendered_ok _ _ Hr) as (data & _ & _ & -> & _). cbn [exception_of].
    split; [reflexivity|]. cbn. apply fetched_lookups.
Qed.

Lemma fetched_run (str : exn -> string) (api : YouTubeTranscriptApi) (argv : list string)
    (t : Transcript) :
  In t (fetched (contacts (run str api argv))) ->
  (exists document, rendered t = Ok document /\ output (run str api argv) = [document]
                    /\ status (run str api argv) = 0%Z /\ fault (run str api argv) = None) \/
  (exists e, rendered t = Err e /\ output (run str api argv) = [error_document (str e)]
             /\ status (run str api argv) = 1%Z /\ fault (run str api argv) = None).
Proof.
  destruct (argv_cases argv) as [Hu | [vid Hv]].
  - rewrite (run_usage _ _ _ Hu). cbn. tauto.
  - rewrite (run_summary _ _ _ _ Hv). rewrite fetched_summary. unfold summary.
    destruct (api vid) as [tl|e]; [|cbn; tauto].
    destruct (selected tl) as [t'|]; [|cbn; tauto].
    intros [<- | []].
    destruct (rendered t') as [document|e]; [left | right]; eauto.
Qed.

(** ** Facts about the selection *)

Lemma lookups_do_not_propagate (tl : TranscriptList) (c : contact) :
  In c (lookups tl) -> propagates (asked c) = false.
Proof.
  unfold lookups.
  destruct (find_transcript tl ["en"]); [intros [<- | []]; reflexivity|].
  destruct (find_generated_transcript tl ["en"]); cbn;
    intros H; repeat (destruct H as [<- | H]; [reflexivity|]); destruct H.
Qed.

Lemma selected_explicit (tl : TranscriptList) (t : Transcript) :
  provider_contract tl -> In t (tracks tl) -> explicit_english t = true ->
  selected tl = Some t /\
  lookups tl = [{| asked := FindTranscript ["en"]; raised := None |}].
Proof.
  intros Hc Hin He. unfold selected, lookups.
  rewrite (finds_explicit _ Hc _ Hin He). auto.
Qed.

Lemma generated_not_explicit (t : Transcript) :
  english t = true -> explicit_english t = false -> generated_english t = true.
Proof.
  unfold explicit_english, generated_english. intros ->. cbn.
  destruct (is_generated t); [reflexivity | discriminate].
Qed.

Lemma selected_generated (tl : TranscriptList) (g : Transcript) :
  provider_contract tl -> In g (tracks tl) -> generated_english g = true ->
  (forall t, In t (tracks tl) -> explicit_english t = false) ->
  selected tl = Some g.
Proof.
  intros Hc Hin Hg Hno. unfold selected.
  pose proof (finds_generated _ Hc _ Hin Hg) as Hfind.
  destruct (find_transcript tl ["en"]) as [t|e] eqn:Hf.
  - destruct (found_is_english _ Hc _ Hf) as [Ht He].
    pose proof (generated_not_explicit _ He (Hno _ Ht)) as Htg.
    pose proof (finds_generated _ Hc _ Ht Htg) as Hfind'.
    rewrite Hfind in Hfind'. injection Hfind' as <-. reflexivity.
  - rewrite Hfind. reflexivity.
Qed.

Lemma selected_first (tl : TranscriptList) :
  provider_contract tl ->
  (forall t, In t (tracks tl) -> english t = false) ->
  selected tl = hd_error (tracks tl).
Proof.
  intros Hc Hno. unfold selected.
  destruct (find_transcript tl ["en"]) as [t|e] eqn:Hf.
  - destruct (found_is_english _ Hc _ Hf) as [Ht He].
    rewrite (Hno _ Ht) in He. discriminate.
  - destruct (find_generated_transcript tl ["en"]) as [t|e'] eqn:Hg; [|reflexivity].
    destruct (found_is_generated _ Hc _ Hg) as [Ht He].
    unfold generated_english in He. rewrite (Hno _ Ht) in He. discriminate.
Qed.

(** ** Facts about the output *)

Lemma comprehension_Forall2 {A B : Type} (f : A -> result B) (l : list A) (l' : list B) :
  comprehension f l = Ok l' -> Forall2 (fun a b => f a = Ok b) l l'.
Proof.
  revert l'. induction l as [|a rest IH]; cbn; intros l' H.
  - injection H as <-. constructor.
  - destruct (f a) as [b|] eqn:Ha; cbn in H; [|discriminate].
    destruct (comprehension f rest) as [bs|]; cbn in H; [|discriminate].
    injection H as <-. constructor; auto.
Qed.

Lemma formatted_Forall2 (data rows : list pyval) :
  formatted data = Ok rows ->
  Forall2 (fun e r => normalize_entry e = Some r) data rows.
Proof.
  unfold formatted. intros H.
  destruct (not_dicts data); apply comprehension_Forall2 in H;
    (eapply Forall2_impl; [|exact H]); cbn; intros e r Hr.
  - apply format_attr_normalize in Hr. tauto.
  - apply format_item_normalize in Hr. tauto.
Qed.

Lemma rows_have_three_keys (data rows : list pyval) (js : list json) :
  Forall2 (fun e r => normalize_entry e = Some r) data rows ->
  Forall2 (fun r j => dumps r = Ok j) rows js ->
  Forall (fun j => keys j = Some ["text"; "duration"; "offset"]) js.
Proof.
  intros H. revert js. induction H as [|e r data rows Hr _ IH]; intros js Hjs;
    inversion Hjs; subst; constructor.
  - eapply normalize_entry_keys; eauto.
  - apply IH. assumption.
Qed.

Lemma rendered_keys (t : Transcript) (document : json) :
  rendered t = Ok document ->
  exists js, document = JArray js /\
             Forall (fun j => keys j = Some ["text"; "duration"; "offset"]) js.
Proof.
  intros H. destruct (rendered_ok _ _ H) as (data & rows & js & _ & Hrows & Hjs & ->).
  exists js. split; [reflexivity|].
  eapply rows_have_three_keys.
  - apply formatted_Forall2. eassumption.
  - apply comprehension_Forall2. assumption.
Qed.

(** ** The sample library honours the contract *)

Lemma find_kind_some (ts : list Transcript) (code : string) (kinds : list bool) (t : Transcript) :
  find_kind ts code kinds = Some t ->
  In t ts /\ language_code t = code /\ In (is_generated t) kinds.
Proof.
  induction kinds as [|k rest IH]; cbn; [discriminate|].
  destruct (find (track_of code k) ts) as [t'|] eqn:Hf.
  - intros H; injection H as ->. apply find_some in Hf as [Hin Ht].
    unfold track_of in Ht. apply andb_prop in Ht as [Hc Hk].
    apply String.eqb_eq in Hc. apply Bool.eqb_prop in Hk. auto.
  - intros H. destruct (IH H) as (? & ? & ?). auto.
Qed.

Lemma find_unique (ts : list Transcript) (code : string) (k : bool) (t : Transcript) :
  unique_tracks ts -> In t ts -> language_code t = code -> is_generated t = k ->
  find (track_of code k) ts = Some t.
Proof.
  intros Hu Hin Hc Hk.
  destruct (find (track_of code k) ts) as [t'|] eqn:Hf.
  - apply find_some in Hf as [Hin' Ht'].
    unfold track_of in Ht'. apply andb_prop in Ht' as [Hc' Hk'].
    apply String.eqb_eq in Hc'. apply Bool.eqb_prop in Hk'.
    f_equal. apply Hu; congruence.
  - pose proof (find_none _ _ Hf t Hin) as Hn. unfold track_of in Hn.
    rewrite Hc, Hk, String.eqb_refl, Bool.eqb_reflx in Hn. discriminate.
Qed.

Lemma sample_list_contract (video_id : string) (ts : list Transcript) :
  unique_tracks ts -> provider_contract (sample_list video_id ts).
Proof.
  intros Hu. constructor; cbn [sample_list find_transcript find_generated_transcript tracks find_codes].
  - intros t Hin He. unfold explicit_english, english in He.
    apply andb_prop in He as [Hc Hk]. apply String.eqb_eq in Hc.
    apply negb_true_iff in Hk. cbn [find_kind].
    rewrite (find_unique _ _ _ _ Hu Hin Hc Hk). reflexivity.
  - intros t Hin He. unfold generated_english, english in He.
    apply andb_prop in He as [Hc Hk]. apply String.eqb_eq in Hc.
    cbn [find_kind]. rewrite (find_unique _ _ _ _ Hu Hin Hc Hk). reflexivity.
  - intros t H. destruct (find_kind ts "en" [false; true]) as [t'|] eqn:Hf; [|discriminate].
    injection H as ->. apply find_kind_some in Hf as (Hin & Hc & _).
    split; [assumption|]. unfold english. rewrite Hc. reflexivity.
  - intros t H. destruct (find_kind ts "en" [true]) as [t'|] eqn:Hf; [|discriminate].
    injection H as ->. apply find_kind_some in Hf as (Hin & Hc & [Hk | []]).
    split; [assumption|]. unfold generated_english, english. rewrite Hc, <- Hk. reflexivity.
Qed.

Ltac distinct_tracks :=
  intros t t' H H'; cbn in H, H';
  intuition (subst; first [reflexivity | discriminate]).

Lemma sample_contract_abc123 :
  provider_contract (sample_list "abc123" [es_track; en_track; en_generated_track]).
Proof. apply sample_list_contract. distinct_tracks. Qed.

Lemma sample_contract_auto :
  provider_contract (sample_list "auto" [es_track; en_generated_track]).
Proof. apply sample_list_contract. distinct_tracks. Qed.

Lemma sample_contract_spanish :
  provider_contract (sample_list "spanish" [es_track]).
Proof. apply sample_list_contract. distinct_tracks. Qed.

(** ** The claims *)

(** C1: for a valid video identifier whose tracks hold an explicit English
    track, lines 12-22 select that track; the run asks the library for the
    list, for the English track and for the entries of that track, and for
    nothing else: neither the generated lookup nor the iteration is
    reached. *)
Theorem explicit_english_is_selected (str : exn -> string) (api : YouTubeTranscriptApi)
    (argv : list string) (vid : string) (tl : TranscriptList) (t : Transcript) :
  nth_error argv 1 = Some vid ->
  api vid = Ok tl ->
  provider_contract tl ->
  In t (tracks tl) ->
  explicit_english t = true ->
  (forall w, fst (select_transcript tl w) = Normal (Some t)) /\
  map asked (contacts (run str api argv))
  = [ListTracks vid; FindTranscript ["en"]; Fetch t].
Proof.
  intros Hv Ha Hc Hin He.
  destruct (selected_explicit _ _ Hc Hin He) as [Hs Hl].
  split.
  - intros w. rewrite select_transcript_eq, Hs. reflexivity.
  - rewrite (run_summary _ _ _ _ Hv). unfold summary. rewrite Ha, Hs, Hl.
    destruct (rendered t); reflexivity.
Qed.

Lemma explicit_english_is_selected_witness :
  (forall w, fst (select_transcript
                    (sample_list "abc123" [es_track; en_track; en_generated_track]) w)
             = Normal (Some en_track)) /\
  map asked (contacts (run sample_str sample_api ["fetch_transcript.py"; "abc123"]))
  = [ListTracks "abc123"; FindTranscript ["en"]; Fetch en_track].
Proof.
  apply (explicit_english_is_selected sample_str sample_api
           ["fetch_transcript.py"; "abc123"] "abc123"
           (sample_list "abc123" [es_track; en_track; en_generated_track]) en_track).
  - reflexivity.
  - reflexivity.
  - exact sample_contract_abc123.
  - cbn. right. left. reflexivity.
  - reflexivity.
Defined.

(** C2: whichever of the two shapes the fetched entry sequence comes in,
    key-value mappings or attribute-bearing records, lines 27-30 read the
    text, duration and start of each entry from that shape and emit, in
    order, one record per entry with the keys text, duration, offset, the
    offset being the entry's start. *)
Theorem both_shapes_are_normalized (s : shape) (data : list pyval) (entries : list entry) :
  Forall2 (presents s) data entries ->
  formatted data = Ok (map output_record entries).
Proof.
  intros H.
  assert (Hdo : forall f,
             (forall v e, presents s v e -> f v = Ok (output_record e)) ->
             comprehension f data = Ok (map output_record entries)).
  { intros f Hf. induction H as [|v e data entries Hve _ IH]; [reflexivity|].
    cbn [comprehension map]. rewrite (Hf _ _ Hve). cbn [result_bind].
    rewrite IH. reflexivity. }
  assert (Hform : not_dicts data = match s, data with
                                   | AttributeRecord, _ :: _ => true
                                   | _, _ => false
                                   end).
  { destruct H as [|v e data entries Hve _]; [destruct s; reflexivity|].
    destruct s, v; cbn in Hve; try contradiction; reflexivity. }
  unfold formatted. rewrite Hform.
  destruct s.
  - apply Hdo. intros v e Hve.
    destruct v; cbn in Hve; try contradiction. destruct Hve as (Ht & Hd & Hs).
    unfold format_item, getitem. rewrite Ht, Hd, Hs. reflexivity.
  - assert (Hattr : forall v e, presents AttributeRecord v e ->
                                format_attr v = Ok (output_record e)).
    { intros v e Hve. destruct v; cbn in Hve; try contradiction.
      destruct Hve as (Ht & Hd & Hs).
      unfold format_attr, getattr. rewrite Ht, Hd, Hs. reflexivity. }
    destruct data as [|v data].
    + inversion H. reflexivity.
    + apply Hdo. exact Hattr.
Qed.

Lemma both_shapes_are_normalized_witness :
  formatted [hello_item; world_item]
  = Ok (map output_record [hello_entry; world_entry]) /\
  formatted [hello_snippet; world_snippet]
  = Ok (map output_record [hello_entry; world_entry]).
Proof.
  split.
  - apply (both_shapes_are_normalized Mapping [hello_item; world_item]
             [hello_entry; world_entry]).
    repeat constructor.
  - apply (both_shapes_are_normalized AttributeRecord [hello_snippet; world_snippet]
             [hello_entry; world_entry]).
    repeat constructor.
Defined.

(** C3 (as amended): when listing the tracks or fetching the entries of the
    selected track raises a transcripts-disabled or no-transcript-found
    error, the run writes one JSON object whose only key is error, with the
    message of that exception, exits with status 1, and no exception
    escapes. *)
Theorem unavailable_is_reported (str : exn -> string) (api : YouTubeTranscriptApi)
    (argv : list string) (c : contact) (e : exn) :
  In c (contacts (run str api argv)) ->
  propagates (asked c) = true ->
  raised c = Some e ->
  unavailable e = true ->
  output (run str api argv) = [error_document (str e)] /\
  has_error_key (error_document (str e)) = true /\
  status (run str api argv) = 1%Z /\
  status (run str api argv) <> 0%Z /\
  fault (run str api argv) = None.
Proof.
  intros Hin Hp Hr _.
  assert (Hgoal : run str api argv
                  = failed (str e) (contacts (run str api argv))).
  { destruct (argv_cases argv) as [Hu | [vid Hv]].
    - rewrite (run_usage _ _ _ Hu) in Hin. destruct Hin.
    - rewrite (run_summary _ _ _ _ Hv) in *. unfold summary in *.
      destruct (api vid) as [tl|e0].
      + assert (Hlog : forall c', In c' ({| asked := ListTracks vid; raised := None |} :: lookups tl) ->
                                  propagates (asked c') = true -> raised c' = Some e -> False).
        { intros c' [<- | Hl] Hp' Hr'; [discriminate Hr'|].
          rewrite (lookups_do_not_propagate _ _ Hl) in Hp'. discriminate. }
        destruct (selected tl) as [t|].
        * assert (Hf : fetch t = Err e).
          { assert (Hc : In c (({| asked := ListTracks vid; raised := None |} :: lookups tl)
                                 ++ [{| asked := Fetch t; raised := exception_of (fetch t) |}]))
              by (destruct (rendered t); exact Hin).
            apply in_app_or in Hc as [Hc | [<- | []]].
            - destruct (Hlog _ Hc Hp Hr).
            - cbn in Hr. destruct (fetch t); cbn in Hr; [discriminate|].
              injection Hr as ->. reflexivity. }
          rewrite (rendered_fetch_error _ _ Hf). reflexivity.
        * destruct (Hlog _ Hin Hp Hr).
      + destruct Hin as [<- | []]. cbn in Hr. injection Hr as ->. reflexivity. }
  rewrite Hgoal. cbn. repeat split. discriminate.
Qed.

Lemma unavailable_is_reported_witness :
  output (run sample_str sample_api ["fetch_transcript.py"; "blocked"])
  = [error_document "No transcripts were found for blocked"] /\
  has_error_key (error_document "No transcripts were found for blocked") = true /\
  status (run sample_str sample_api ["fetch_transcript.py"; "blocked"]) = 1%Z /\
  status (run sample_str sample_api ["fetch_transcript.py"; "blocked"]) <> 0%Z /\
  fault (run sample_str sample_api ["fetch_transcript.py"; "blocked"]) = None.
Proof.
  apply (unavailable_is_reported sample_str sample_api
           ["fetch_transcript.py"; "blocked"]
           {| asked := Fetch blocked_track;
              raised := Some (NoTranscriptFound "blocked" ["en"]) |}
           (NoTranscriptFound "blocked" ["en"])).
  - cbn. right. right. left. reflexivity.
  - reflexivity.
  - reflexivity.
  - reflexivity.
Defined.

Lemma lookup_error_is_absorbed :
  In {| asked := FindTranscript ["en"];
        raised := Some (NoTranscriptFound "spanish" ["en"]) |}
     (contacts (run sample_str sample_api ["fetch_transcript.py"; "spanish"])) /\
  unavailable (NoTranscriptFound "spanish" ["en"]) = true /\
  output (run sample_str sample_api ["fetch_transcript.py"; "spanish"])
  = [JArray [hello_record]] /\
  status (run sample_str sample_api ["fetch_transcript.py"; "spanish"]) = 0%Z /\
  ~ (forall str api argv c e,
        In c (contacts (run str api argv)) ->
        raised c = Some e ->
        unavailable e = true ->
        (exists j, output (run str api argv) = [j] /\ has_error_key j = true) /\
        status (run str api argv) <> 0%Z /\
        fault (run str api argv) = None).
Proof.
  split; [cbn; right; left; reflexivity|].
  split; [reflexivity|]. split; [reflexivity|]. split; [reflexivity|].
  intros H.
  destruct (H sample_str sample_api ["fetch_transcript.py"; "spanish"]
              {| asked := FindTranscript ["en"];
                 raised := Some (NoTranscriptFound "spanish" ["en"]) |}
              (NoTranscriptFound "spanish" ["en"])) as (_ & Hs & _).
  - cbn. right. left. reflexivity.
  - reflexivity.
  - reflexivity.
  - apply Hs. reflexivity.
Qed.

(** C4: every run writes exactly one JSON document to standard output; when
    the run succeeds (status 0) the document is an array, and every element
    of the array is an object with exactly the keys text, duration, offset,
    in this order. *)
Theorem one_document_per_run (str : exn -> string) (api : YouTubeTranscriptApi)
    (argv : list string) :
  exists j,
    output (run str api argv) = [j] /\
    (status (run str api argv) = 0%Z ->
     exists js, j = JArray js /\
                Forall (fun r => keys r = Some ["text"; "duration"; "offset"]) js).
Proof.
  destruct (run_shape str api argv)
    as [(message & log & ->) | (t & document & log & Hr & -> & _)].
  - exists (error_document message). split; [reflexivity|]. cbn. discriminate.
  - exists document. split; [reflexivity|]. intros _. apply (rendered_keys _ _ Hr).
Qed.

(** C5: when the entries fetched for a run are [data] and the run emits an
    array, the array has the length of [data] and its i-th element is the
    JSON form of the normalization of the i-th entry. *)
Theorem output_preserves_order (str : exn -> string) (api : YouTubeTranscriptApi)
    (argv : list string) (t : Transcript) (data : list pyval) (js : list json) :
  In t (fetched (contacts (run str api argv))) ->
  fetch t = Ok data ->
  output (run str api argv) = [JArray js] ->
  length js = length data /\
  forall i entry, nth_error data i = Some entry ->
    exists record j,
      normalize_entry entry = Some record /\ dumps record = Ok j /\
      nth_error js i = Some j.
Proof.
  intros Hin Hf Ho.
  destruct (fetched_run _ _ _ _ Hin) as [(document & Hr & Hout & _) | (e & _ & Hout & _)];
    rewrite Hout in Ho; [|discriminate].
  injection Ho as ->.
  destruct (rendered_ok _ _ Hr) as (data' & rows & js' & Hf' & Hrows & Hjs & Hd).
  rewrite Hf in Hf'. injection Hf' as <-. injection Hd as <-.
  split.
  - rewrite (comprehension_length _ _ _ Hjs). apply formatted_length. assumption.
  - intros i entry Hi.
    destruct (formatted_nth _ _ Hrows i entry Hi) as (record & Hn & Hrow).
    destruct (comprehension_nth _ _ _ Hjs i record Hrow) as (j & Hj & Hji).
    exists record, j. auto.
Qed.

Lemma output_preserves_order_witness :
  length [hello_record; world_record] = length [hello_item; world_item] /\
  forall i entry, nth_error [hello_item; world_item] i = Some entry ->
    exists record j,
      normalize_entry entry = Some record /\ dumps record = Ok j /\
      nth_error [hello_record; world_record] i = Some j.
Proof.
  apply (output_preserves_order sample_str sample_api
           ["fetch_transcript.py"; "abc123"] en_track).
  - cbn. left. reflexivity.
  - reflexivity.
  - reflexivity.
Defined.

(** C6: for a valid video identifier whose tracks hold a generated English
    track and no explicit English track, lines 12-22 select the generated
    English track, and it is the one track the run fetches. *)
Theorem generated_english_is_selected (str : exn -> string) (api : YouTubeTranscriptApi)
    (argv : list string) (vid : string) (tl : TranscriptList) (g : Transcript) :
  nth_error argv 1 = Some vid ->
  api vid = Ok tl ->
  provider_contract tl ->
  In g (tracks tl) ->
  generated_english g = true ->
  (forall t, In t (tracks tl) -> explicit_english t = false) ->
  (forall w, fst (select_transcript tl w) = Normal (Some g)) /\
  fetched (contacts (run str api argv)) = [g].
Proof.
  intros Hv Ha Hc Hin Hg Hno.
  pose proof (selected_generated _ _ Hc Hin Hg Hno) as Hs.
  split.
  - intros w. rewrite select_transcript_eq, Hs. reflexivity.
  - rewrite (run_summary _ _ _ _ Hv), fetched_summary, Ha, Hs. reflexivity.
Qed.

Lemma generated_english_is_selected_witness :
  (forall w, fst (select_transcript (sample_list "auto" [es_track; en_generated_track]) w)
             = Normal (Some en_generated_track)) /\
  fetched (contacts (run sample_str sample_api ["fetch_transcript.py"; "auto"]))
  = [en_generated_track].
Proof.
  apply (generated_english_is_selected sample_str sample_api
           ["fetch_transcript.py"; "auto"] "auto"
           (sample_list "auto" [es_track; en_generated_track]) en_generated_track).
  - reflexivity.
  - reflexivity.
  - exact sample_contract_auto.
  - cbn. right. left. reflexivity.
  - reflexivity.
  - cbn. intros t [<- | [<- | []]]; reflexivity.
Defined.

(** C7: for a valid video identifier with no English track, lines 12-22
    select the first track in iteration order, whatever its language, and
    the run fetches it; when the iteration is empty no track is selected or
    fetched, and the run prints the error object "No transcript found" and
    exits with status 1. *)
Theorem first_track_is_selected (str : exn -> string) (api : YouTubeTranscriptApi)
    (argv : list string) (vid : string) (tl : TranscriptList) :
  nth_error argv 1 = Some vid ->
  api vid = Ok tl ->
  provider_contract tl ->
  (forall t, In t (tracks tl) -> english t = false) ->
  (forall w, fst (select_transcript tl w) = Normal (hd_error (tracks tl))) /\
  match tracks tl with
  | first :: _ => fetched (contacts (run str api argv)) = [first]
  | [] => fetched (contacts (run str api argv)) = [] /\
          output (run str api argv) = [error_document "No transcript found"] /\
          status (run str api argv) = 1%Z /\
          fault (run str api argv) = None
  end.
Proof.
  intros Hv Ha Hc Hno.
  pose proof (selected_first _ Hc Hno) as Hs.
  split.
  - intros w. rewrite select_transcript_eq, Hs. reflexivity.
  - rewrite (run_summary _ _ _ _ Hv), fetched_summary. unfold summary.
    rewrite Ha, Hs. destruct (tracks tl); cbn; auto.
Qed.

Lemma first_track_is_selected_witness :
  (forall w, fst (select_transcript (sample_list "spanish" [es_track]) w)
             = Normal (Some es_track)) /\
  fetched (contacts (run sample_str sample_api ["fetch_transcript.py"; "spanish"]))
  = [es_track].
Proof.
  apply (first_track_is_selected sample_str sample_api
           ["fetch_transcript.py"; "spanish"] "spanish"
           (sample_list "spanish" [es_track])).
  - reflexivity.
  - reflexivity.
  - exact sample_contract_spanish.
  - cbn. intros t [<- | []]. reflexivity.
Defined.

(** C8: a run without a video identifier on the command line writes the one
    document [{"error": "No video ID provided"}], exits with status 1, and
    makes no call to the library. *)
Theorem missing_argument_is_reported (str : exn -> string) (api : YouTubeTranscriptApi)
    (argv : list string) :
  (length argv < 2)%nat ->
  output (run str api argv) = [JObject [("error", JString "No video ID provided")]] /\
  status (run str api argv) = 1%Z /\
  status (run str api argv) <> 0%Z /\
  fault (run str api argv) = None /\
  contacts (run str api argv) = [].
Proof.
  intros H. rewrite (run_usage _ _ _ H). cbn. repeat split. discriminate.
Qed.

Lemma missing_argument_is_reported_witness :
  output (run sample_str sample_api ["fetch_transcript.py"])
  = [JObject [("error", JString "No video ID provided")]] /\
  status (run sample_str sample_api ["fetch_transcript.py"]) = 1%Z /\
  status (run sample_str sample_api ["fetch_transcript.py"]) <> 0%Z /\
  fault (run sample_str sample_api ["fetch_transcript.py"]) = None /\
  contacts (run sample_str sample_api ["fetch_transcript.py"]) = [].
Proof.
  apply (missing_argument_is_reported sample_str sample_api ["fetch_transcript.py"]).
  cbn. lia.
Defined.

(** C9: every run writes exactly one JSON document and lets no exception
    escape; its exit status is 0 exactly when the document is the array of
    a rendered track, and non-zero (it is 1) exactly when the document is an
    error object. *)
Theorem exit_status_tells_success (str : exn -> string) (api : YouTubeTranscriptApi)
    (argv : list string) :
  exists j,
    output (run str api argv) = [j] /\
    fault (run str api argv) = None /\
    (status (run str api argv) = 0%Z <-> is_array j = true) /\
    (status (run str api argv) <> 0%Z <-> has_error_key j = true) /\
    (status (run str api argv) = 0%Z \/ status (run str api argv) = 1%Z).
Proof.
  destruct (run_shape str api argv)
    as [(message & log & ->) | (t & document & log & Hr & -> & _)].
  - exists (error_document message). cbn.
    repeat split; auto; try discriminate.
  - destruct (rendered_ok _ _ Hr) as (_ & _ & js & _ & _ & _ & ->).
    exists (JArray js). cbn.
    repeat split; auto; try discriminate;
      try (intros H; exfalso; apply H; reflexivity).
Qed.

(** C10: when the track a run fetches has an empty entry sequence, the run
    writes the empty array and exits with status 0. *)
Theorem empty_transcript_succeeds (str : exn -> string) (api : YouTubeTranscriptApi)
    (argv : list string) (t : Transcript) :
  In t (fetched (contacts (run str api argv))) ->
  fetch t = Ok [] ->
  output (run str api argv) = [JArray []] /\
  status (run str api argv) = 0%Z /\
  fault (run str api argv) = None.
Proof.
  intros Hin Hf.
  assert (Hr : rendered t = Ok (JArray [])) by (unfold rendered; rewrite Hf; reflexivity).
  destruct (fetched_run str _ _ _ Hin) as [(document & Hr' & Ho & Hs & Hx) | (e & Hr' & _)];
    rewrite Hr in Hr'; [|discriminate].
  injection Hr' as <-. auto.
Qed.

Lemma empty_transcript_succeeds_witness :
  output (run sample_str sample_api ["fetch_transcript.py"; "silent"]) = [JArray []] /\
  status (run sample_str sample_api ["fetch_transcript.py"; "silent"]) = 0%Z /\
  fault (run sample_str sample_api ["fetch_transcript.py"; "silent"]) = None.
Proof.
  apply (empty_transcript_succeeds sample_str sample_api
           ["fetch_transcript.py"; "silent"] silent_track).
  - cbn. left. reflexivity.
  - reflexivity.
Defined.

(** ** Runs of the sample videos *)

Example spec_example :
  run sample_str
      (fun _ => Ok (sample_list "abc123"
         [{| language_code := "en"; is_generated := false; fetch := Ok [hello_item] |}]))
      ["fetch_transcript.py"; "abc123"]
  = succeeded (JArray [hello_record])
      [ {| asked := ListTracks "abc123"; raised := None |};
        {| asked := FindTranscript ["en"]; raised := None |};
        {| asked := Fetch {| language_code := "en"; is_generated := false;
                             fetch := Ok [hello_item] |};
           raised := None |} ].
Proof. reflexivity. Qed.

Example no_tracks_example :
  run sample_str sample_api ["fetch_transcript.py"; "empty"]
  = failed "No transcript found"
      [ {| asked := ListTracks "empty"; raised := None |};
        {| asked := FindTranscript ["en"];
           raised := Some (NoTranscriptFound "empty" ["en"]) |};
        {| asked := FindGenerated ["en"];
           raised := Some (NoTranscriptFound "empty" ["en"]) |};
        {| asked := Iterate; raised := None |} ].
Proof. reflexivity. Qed.

Example disabled_example :
  run sample_str sample_api ["fetch_transcript.py"; "nope"]
  = failed "Subtitles are disabled for nope"
      [ {| asked := ListTracks "nope"; raised := Some (TranscriptsDisabled "nope") |} ].
Proof. reflexivity. Qed.

Example mixed_forms_example :
  run sample_str
      (fun _ => Ok (sample_list "mixed"
         [{| language_code := "en"; is_generated := false;
             fetch := Ok [hello_snippet; hello_item] |}]))
      ["fetch_transcript.py"; "mixed"]
  = failed "object has no attribute 'text'"
      [ {| asked := ListTracks "mixed"; raised := None |};
        {| asked := FindTranscript ["en"]; raised := None |};
        {| asked := Fetch {| language_code := "en"; is_generated := false;
                             fetch := Ok [hello_snippet; hello_item] |};
           raised := None |} ].
Proof. reflexivity. Qed.

Example unserializable_example :
  run sample_str
      (fun _ => Ok (sample_list "odd"
         [{| language_code := "en"; is_generated := false;
             fetch := Ok [PyDict [("text", hello_snippet); ("start", PyInt 0);
                                  ("duration", PyInt 1)]] |}]))
      ["fetch_transcript.py"; "odd"]
  = failed "unsupported object"
      [ {| asked := ListTracks "odd"; raised := None |};
        {| asked := FindTranscript ["en"]; raised := None |};
        {| asked := Fetch {| language_code := "en"; is_generated := false;
                             fetch := Ok [PyDict [("text", hello_snippet); ("start", PyInt 0);
                                                  ("duration", PyInt 1)]] |};
           raised := None |} ].
Proof. reflexivity. Qed.

(** ** Further properties of the script *)

Lemma summary_shape (str : exn -> string) (api : YouTubeTranscriptApi) (vid : string) :
  (exists message log, summary str api vid = failed message log) \/
  (exists t document log, rendered t = Ok document /\
                          summary str api vid = succeeded document log).
Proof.
  unfold summary. destruct (api vid) as [tl|e]; [|left; eauto].
  destruct (selected tl) as [t|]; [|left; eauto].
  destruct (rendered t) as [document|e] eqn:Hr; [right | left]; eauto.
Qed.

(** In any world, [get_transcript] appends to the world what its summary
    says and returns, or exits with status 1. *)
Lemma get_transcript_summary (str : exn -> string) (api : YouTubeTranscriptApi)
    (vid : string) (w : world) :
  get_transcript str api vid w =
  (match status (summary str api vid) with
   | 0%Z => Normal tt
   | _ => SystemExit 1
   end,
   {| stdout := stdout w ++ output (summary str api vid);
      requests := requests w ++ contacts (summary str api vid) |}).
Proof.
  unfold summary, get_transcript, try_except, bind at 1.
  unfold bind at 1, call at 1, lift at 1, note.
  destruct (api vid) as [tl|e]; cbn [exception_of].
  - unfold bind at 1. rewrite select_transcript_eq. cbn [stdout requests].
    destruct (selected tl) as [t|].
    + unfold rendered, bind, call, print_json, bind, lift, print, say, note.
      destruct (fetch t) as [data|e]; cbn [result_bind exception_of stdout requests].
      * destruct (formatted data) as [rows|e]; cbn [result_bind].
        -- rewrite dumps_list.
           destruct (comprehension dumps rows) as [js|e]; cbn;
             [|destruct e; cbn]; rewrite <- !app_assoc; reflexivity.
        -- destruct e; cbn; rewrite <- !app_assoc; reflexivity.
      * destruct e; cbn; rewrite <- !app_assoc; reflexivity.
    + cbn. rewrite <- !app_assoc. reflexivity.
  - destruct e; reflexivity.
Qed.

Lemma uniform_entries (b : bool) (data rows : list pyval) :
  Forall2 (fun e r => isinstance_dict e = b /\ normalize_entry e = Some r) data rows ->
  (if b then forallb isinstance_dict data
   else forallb (fun e => negb (isinstance_dict e)) data) = true /\
  normalize data = Some rows.
Proof.
  induction 1 as [|e r data rows [Hb Hn] _ [IHf IHn]]; [destruct b; auto|].
  cbn [normalize]. rewrite Hn, IHn. split; [|reflexivity].
  destruct b; cbn [forallb]; rewrite Hb, IHf; reflexivity.
Qed.

Lemma formatted_of_normalize (data rows : list pyval) :
  same_form data = true -> normalize data = Some rows -> formatted data = Ok rows.
Proof.
  unfold same_form, formatted. intros Hs Hn.
  apply orb_prop in Hs as [Hd | Ha].
  - assert (Hb : not_dicts data = false).
    { destruct data as [|e rest]; [reflexivity|]. cbn in Hd |- *.
      apply andb_prop in Hd as [-> _]. reflexivity. }
    rewrite Hb. apply comprehension_items; assumption.
  - destruct data as [|e rest].
    + cbn in Hn |- *. injection Hn as <-. reflexivity.
    + assert (Hb : not_dicts (e :: rest) = true).
      { cbn in Ha |- *. apply andb_prop in Ha as [-> _]. reflexivity. }
      rewrite Hb. apply comprehension_attrs; assumption.
Qed.

Lemma normalize_of_formatted (data rows : list pyval) :
  formatted data = Ok rows -> same_form data = true /\ normalize data = Some rows.
Proof.
  unfold formatted, same_form. intros H.
  destruct (not_dicts data); apply comprehension_Forall2 in H.
  - destruct (uniform_entries false data rows) as [Hf Hn].
    { eapply Forall2_impl; [|exact H]. cbn. intros e r Hr.
      apply format_attr_normalize. assumption. }
    split; [|assumption]. apply orb_true_iff. right. exact Hf.
  - destruct (uniform_entries true data rows) as [Hf Hn].
    { eapply Forall2_impl; [|exact H]. cbn. intros e r Hr.
      apply format_item_normalize. assumption. }
    split; [|assumption]. apply orb_true_iff. left. exact Hf.
Qed.

Lemma lookups_asked (tl : TranscriptList) (c : contact) :
  In c (lookups tl) ->
  asked c = FindTranscript ["en"] \/ asked c = FindGenerated ["en"] \/ asked c = Iterate.
Proof.
  unfold lookups.
  destruct (find_transcript tl ["en"]); [intros [<- | []]; auto|].
  destruct (find_generated_transcript tl ["en"]); cbn;
    intros H; repeat (destruct H as [<- | H]; [auto|]); destruct H.
Qed.

(** X1: lines 27-30 produce the records exactly when the entries are all of
    one form (mappings, or attribute-bearing records) and every entry carries
    text, duration and start; the records are then the entries'
    normalizations, in order.  On any other sequence they raise. *)
Theorem formatted_succeeds_exactly (data rows : list pyval) :
  formatted data = Ok rows <->
  same_form data = true /\ normalize data = Some rows.
Proof.
  split; [apply normalize_of_formatted|].
  intros [Hs Hn]. apply formatted_of_normalize; assumption.
Qed.

(** X2: one entry that lacks text, duration or start (an entry that carries
    offset in place of start, say), or that is neither a mapping nor an
    attribute-bearing record, fails the whole run: no array is written, not
    even for the entries before it; the run prints the error object of the
    exception lines 27-30 raise and exits with status 1. *)
Theorem bad_entry_fails_the_run (str : exn -> string) (api : YouTubeTranscriptApi)
    (argv : list string) (t : Transcript) (data : list pyval) (entry : pyval) :
  In t (fetched (contacts (run str api argv))) ->
  fetch t = Ok data ->
  In entry data ->
  normalize_entry entry = None ->
  exists e,
    formatted data = Err e /\
    output (run str api argv) = [error_document (str e)] /\
    status (run str api argv) = 1%Z.
Proof.
  intros Hin Hf He Hn.
  destruct (formatted data) as [rows|e] eqn:Hfm.
  - apply In_nth_error in He as [i Hi].
    destruct (formatted_nth _ _ Hfm i entry Hi) as (r & Hr & _).
    rewrite Hn in Hr. discriminate.
  - exists e. split; [reflexivity|].
    assert (Hr : rendered t = Err e) by (unfold rendered; rewrite Hf; cbn; rewrite Hfm; reflexivity).
    destruct (fetched_run str _ _ _ Hin) as [(d & Hr' & _) | (e' & Hr' & Ho & Hs & _)];
      rewrite Hr in Hr'; [discriminate|].
    injection Hr' as <-. auto.
Qed.

Lemma bad_entry_fails_the_run_witness :
  exists e,
    formatted [hello_item; PyDict [("text", PyStr "late"); ("offset", PyFloat 2.5);
                                   ("duration", PyFloat 1.0)]] = Err e /\
    output (run sample_str
              (fun _ => Ok (sample_list "v"
                 [{| language_code := "en"; is_generated := false;
                     fetch := Ok [hello_item;
                                  PyDict [("text", PyStr "late"); ("offset", PyFloat 2.5);
                                          ("duration", PyFloat 1.0)]] |}]))
              ["fetch_transcript.py"; "v"])
    = [error_document (sample_str e)] /\
    status (run sample_str
              (fun _ => Ok (sample_list "v"
                 [{| language_code := "en"; is_generated := false;
                     fetch := Ok [hello_item;
                                  PyDict [("text", PyStr "late"); ("offset", PyFloat 2.5);
                                          ("duration", PyFloat 1.0)]] |}]))
              ["fetch_transcript.py"; "v"]) = 1%Z.
Proof.
  apply (bad_entry_fails_the_run sample_str _ ["fetch_transcript.py"; "v"]
           {| language_code := "en"; is_generated := false;
              fetch := Ok [hello_item;
                           PyDict [("text", PyStr "late"); ("offset", PyFloat 2.5);
                                   ("duration", PyFloat 1.0)]] |}
           _
           (PyDict [("text", PyStr "late"); ("offset", PyFloat 2.5);
                    ("duration", PyFloat 1.0)])).
  - cbn. left. reflexivity.
  - reflexivity.
  - cbn. right. left. reflexivity.
  - reflexivity.
Defined.

(** X3: when the entries normalize but [json.dumps] refuses one of the
    records (a field holds a value the encoder does not know), nothing of
    the array is written: the run prints the error object with the message
    of that exception and exits with status 1. *)
Theorem unencodable_value_is_reported (str : exn -> string) (api : YouTubeTranscriptApi)
    (argv : list string) (t : Transcript) (data rows : list pyval) (e : exn) :
  In t (fetched (contacts (run str api argv))) ->
  fetch t = Ok data ->
  formatted data = Ok rows ->
  comprehension dumps rows = Err e ->
  output (run str api argv) = [error_document (str e)] /\
  status (run str api argv) = 1%Z /\
  fault (run str api argv) = None.
Proof.
  intros Hin Hf Hrows Hjs.
  assert (Hr : rendered t = Err e).
  { unfold rendered. rewrite Hf. cbn. rewrite Hrows. cbn. rewrite Hjs. reflexivity. }
  destruct (fetched_run str _ _ _ Hin) as [(d & Hr' & _) | (e' & Hr' & Ho & Hs & Hx)];
    rewrite Hr in Hr'; [discriminate|].
  injection Hr' as <-. auto.
Qed.

Lemma unencodable_value_is_reported_witness :
  output (run sample_str
            (fun _ => Ok (sample_list "odd"
               [{| language_code := "en"; is_generated := false;
                   fetch := Ok [PyDict [("text", hello_snippet); ("start", PyInt 0);
                                        ("duration", PyInt 1)]] |}]))
            ["fetch_transcript.py"; "odd"])
  = [error_document (sample_str (TypeError hello_snippet))] /\
  status (run sample_str
            (fun _ => Ok (sample_list "odd"
               [{| language_code := "en"; is_generated := false;
                   fetch := Ok [PyDict [("text", hello_snippet); ("start", PyInt 0);
                                        ("duration", PyInt 1)]] |}]))
            ["fetch_transcript.py"; "odd"]) = 1%Z /\
  fault (run sample_str
           (fun _ => Ok (sample_list "odd"
              [{| language_code := "en"; is_generated := false;
                  fetch := Ok [PyDict [("text", hello_snippet); ("start", PyInt 0);
                                       ("duration", PyInt 1)]] |}]))
           ["fetch_transcript.py"; "odd"]) = None.
Proof.
  apply (unencodable_value_is_reported sample_str _ ["fetch_transcript.py"; "odd"]
           {| language_code := "en"; is_generated := false;
              fetch := Ok [PyDict [("text", hello_snippet); ("start", PyInt 0);
                                   ("duration", PyInt 1)]] |}
           [PyDict [("text", hello_snippet); ("start", PyInt 0); ("duration", PyInt 1)]]
           [PyDict [("text", hello_snippet); ("duration", PyInt 1); ("offset", PyInt 0)]]
           (TypeError hello_snippet)).
  - cbn. left. reflexivity.
  - reflexivity.
  - reflexivity.
  - reflexivity.
Defined.

(** X4: whatever exception listing the tracks raises, one of the two the
    script names or any other, the run prints the error object with its
    message, exits with status 1, and makes no further call to the
    library. *)
Theorem listing_failure_is_reported (str : exn -> string) (api : YouTubeTranscriptApi)
    (argv : list string) (vid : string) (e : exn) :
  nth_error argv 1 = Some vid ->
  api vid = Err e ->
  output (run str api argv) = [error_document (str e)] /\
  status (run str api argv) = 1%Z /\
  fault (run str api argv) = None /\
  contacts (run str api argv) = [{| asked := ListTracks vid; raised := Some e |}].
Proof.
  intros Hv Ha. rewrite (run_summary _ _ _ _ Hv). unfold summary. rewrite Ha.
  cbn. auto.
Qed.

Lemma listing_failure_is_reported_witness :
  output (run sample_str (fun _ => Err (LibraryError "connection reset"))
            ["fetch_transcript.py"; "abc123"])
  = [error_document "connection reset"] /\
  status (run sample_str (fun _ => Err (LibraryError "connection reset"))
            ["fetch_transcript.py"; "abc123"]) = 1%Z /\
  fault (run sample_str (fun _ => Err (LibraryError "connection reset"))
           ["fetch_transcript.py"; "abc123"]) = None /\
  contacts (run sample_str (fun _ => Err (LibraryError "connection reset"))
              ["fetch_transcript.py"; "abc123"])
  = [{| asked := ListTracks "abc123"; raised := Some (LibraryError "connection reset") |}].
Proof.
  apply (listing_failure_is_reported sample_str
           (fun _ => Err (LibraryError "connection reset"))
           ["fetch_transcript.py"; "abc123"] "abc123" (LibraryError "connection reset"));
    reflexivity.
Defined.

(** X5: whatever exception fetching the entries of the selected track
    raises, the run prints the error object with its message and exits with
    status 1; the fetch is the last call made to the library. *)
Theorem fetch_failure_is_reported (str : exn -> string) (api : YouTubeTranscriptApi)
    (argv : list string) (t : Transcript) (e : exn) :
  In t (fetched (contacts (run str api argv))) ->
  fetch t = Err e ->
  output (run str api argv) = [error_document (str e)] /\
  status (run str api argv) = 1%Z /\
  fault (run str api argv) = None /\
  exists before,
    contacts (run str api argv) = before ++ [{| asked := Fetch t; raised := Some e |}].
Proof.
  intros Hin Hf.
  destruct (argv_cases argv) as [Hu | [vid Hv]].
  - rewrite (run_usage _ _ _ Hu) in Hin. destruct Hin.
  - rewrite (run_summary _ _ _ _ Hv) in *. rewrite fetched_summary in Hin.
    unfold summary. destruct (api vid) as [tl|e0]; [|destruct Hin].
    destruct (selected tl) as [t'|]; [|destruct Hin].
    destruct Hin as [<- | []].
    rewrite (rendered_fetch_error _ _ Hf), Hf. cbn [exception_of].
    cbn. repeat split. eexists. rewrite app_comm_cons. reflexivity.
Qed.

Lemma fetch_failure_is_reported_witness :
  output (run sample_str sample_api ["fetch_transcript.py"; "blocked"])
  = [error_document "No transcripts were found for blocked"] /\
  status (run sample_str sample_api ["fetch_transcript.py"; "blocked"]) = 1%Z /\
  fault (run sample_str sample_api ["fetch_transcript.py"; "blocked"]) = None /\
  exists before,
    contacts (run sample_str sample_api ["fetch_transcript.py"; "blocked"])
    = before ++ [{| asked := Fetch blocked_track;
                    raised := Some (NoTranscriptFound "blocked" ["en"]) |}].
Proof.
  apply (fetch_failure_is_reported sample_str sample_api
           ["fetch_transcript.py"; "blocked"] blocked_track
           (NoTranscriptFound "blocked" ["en"])).
  - cbn. left. reflexivity.
  - reflexivity.
Defined.

(** X6: the bare [except] of line 15 absorbs any exception of the first
    lookup, not only the not-found one: when the generated lookup then
    returns a track, that track is selected and fetched, and the iteration
    is not reached. *)
Theorem lookup_failure_falls_back (str : exn -> string) (api : YouTubeTranscriptApi)
    (argv : list string) (vid : string) (tl : TranscriptList) (e : exn) (g : Transcript) :
  nth_error argv 1 = Some vid ->
  api vid = Ok tl ->
  find_transcript tl ["en"] = Err e ->
  find_generated_transcript tl ["en"] = Ok g ->
  (forall w, fst (select_transcript tl w) = Normal (Some g)) /\
  map asked (contacts (run str api argv))
  = [ListTracks vid; FindTranscript ["en"]; FindGenerated ["en"]; Fetch g].
Proof.
  intros Hv Ha Hf Hg.
  assert (Hs : selected tl = Some g) by (unfold selected; rewrite Hf, Hg; reflexivity).
  split.
  - intros w. rewrite select_transcript_eq, Hs. reflexivity.
  - rewrite (run_summary _ _ _ _ Hv). unfold summary, lookups. rewrite Ha, Hs, Hf, Hg.
    destruct (rendered g); reflexivity.
Qed.

Lemma lookup_failure_falls_back_witness :
  (forall w, fst (select_transcript
                    {| find_transcript := fun _ => Err (LibraryError "timeout");
                       find_generated_transcript := fun _ => Ok en_generated_track;
                       tracks := [es_track; en_generated_track] |} w)
             = Normal (Some en_generated_track)) /\
  map asked (contacts (run sample_str
                         (fun _ => Ok {| find_transcript := fun _ => Err (LibraryError "timeout");
                                         find_generated_transcript := fun _ => Ok en_generated_track;
                                         tracks := [es_track; en_generated_track] |})
                         ["fetch_transcript.py"; "v"]))
  = [ListTracks "v"; FindTranscript ["en"]; FindGenerated ["en"]; Fetch en_generated_track].
Proof.
  apply (lookup_failure_falls_back sample_str _ ["fetch_transcript.py"; "v"] "v"
           {| find_transcript := fun _ => Err (LibraryError "timeout");
              find_generated_transcript := fun _ => Ok en_generated_track;
              tracks := [es_track; en_generated_track] |}
           (LibraryError "timeout") en_generated_track); reflexivity.
Defined.

(** X7: when both lookups raise, whatever they raise, the first track of
    the iteration is selected and fetched; the run makes exactly five calls:
    list, the two lookups, the iteration and the fetch. *)
Theorem both_lookups_fail_first_track (str : exn -> string) (api : YouTubeTranscriptApi)
    (argv : list string) (vid : string) (tl : TranscriptList) (e1 e2 : exn)
    (first : Transcript) (others : list Transcript) :
  nth_error argv 1 = Some vid ->
  api vid = Ok tl ->
  find_transcript tl ["en"] = Err e1 ->
  find_generated_transcript tl ["en"] = Err e2 ->
  tracks tl = first :: others ->
  (forall w, fst (select_transcript tl w) = Normal (Some first)) /\
  contacts (run str api argv)
  = [{| asked := ListTracks vid; raised := None |};
     {| asked := FindTranscript ["en"]; raised := Some e1 |};
     {| asked := FindGenerated ["en"]; raised := Some e2 |};
     {| asked := Iterate; raised := None |};
     {| asked := Fetch first; raised := exception_of (fetch first) |}].
Proof.
  intros Hv Ha Hf Hg Ht.
  assert (Hs : selected tl = Some first)
    by (unfold selected; rewrite Hf, Hg, Ht; reflexivity).
  split.
  - intros w. rewrite select_transcript_eq, Hs. reflexivity.
  - rewrite (run_summary _ _ _ _ Hv). unfold summary, lookups. rewrite Ha, Hs, Hf, Hg.
    destruct (rendered first); reflexivity.
Qed.

Lemma both_lookups_fail_first_track_witness :
  (forall w, fst (select_transcript
                    {| find_transcript := fun _ => Err (LibraryError "timeout");
                       find_generated_transcript := fun _ => Err (TranscriptsDisabled "v");
                       tracks := [en_track; es_track] |} w)
             = Normal (Some en_track)) /\
  contacts (run sample_str
              (fun _ => Ok {| find_transcript := fun _ => Err (LibraryError "timeout");
                              find_generated_transcript := fun _ => Err (TranscriptsDisabled "v");
                              tracks := [en_track; es_track] |})
              ["fetch_transcript.py"; "v"])
  = [{| asked := ListTracks "v"; raised := None |};
     {| asked := FindTranscript ["en"]; raised := Some (LibraryError "timeout") |};
     {| asked := FindGenerated ["en"]; raised := Some (TranscriptsDisabled "v") |};
     {| asked := Iterate; raised := None |};
     {| asked := Fetch en_track; raised := exception_of (fetch en_track) |}].
Proof.
  apply (both_lookups_fail_first_track sample_str _ ["fetch_transcript.py"; "v"] "v"
           {| find_transcript := fun _ => Err (LibraryError "timeout");
              find_generated_transcript := fun _ => Err (TranscriptsDisabled "v");
              tracks := [en_track; es_track] |}
           (LibraryError "timeout") (TranscriptsDisabled "v") en_track [es_track]);
    reflexivity.
Defined.

(** X8: lines 12-22 never raise, never exit and print nothing, in any
    world; they leave [transcript] at [None] exactly when both lookups raise
    and the iteration is empty. *)
Theorem selection_never_fails (tl : TranscriptList) (w : world) :
  exists r,
    fst (select_transcript tl w) = Normal r /\
    stdout (snd (select_transcript tl w)) = stdout w /\
    (r = None <->
     (exists e, find_transcript tl ["en"] = Err e) /\
     (exists e, find_generated_transcript tl ["en"] = Err e) /\
     tracks tl = []).
Proof.
  rewrite select_transcript_eq. exists (selected tl). cbn [fst snd stdout].
  split; [reflexivity|]. split; [reflexivity|]. unfold selected.
  destruct (find_transcript tl ["en"]) as [t|e1].
  - split; [discriminate|]. intros [[e H] _]. discriminate.
  - destruct (find_generated_transcript tl ["en"]) as [t|e2].
    + split; [discriminate|]. intros (_ & [e H] & _). discriminate.
    + destruct (tracks tl) as [|t rest]; cbn.
      * split; [eauto 6|reflexivity].
      * split; [discriminate|]. intros (_ & _ & H). discriminate.
Qed.

(** X9: the calls of a run follow one pattern.  Without a video identifier
    there is none.  With one, the first call lists the tracks of that
    identifier, then come only the lookups for ["en"] and the iteration, and
    at most one fetch, which is then the last call: no run fetches two
    tracks. *)
Theorem calls_are_list_lookups_fetch (str : exn -> string) (api : YouTubeTranscriptApi)
    (argv : list string) :
  (length (fetched (contacts (run str api argv))) <= 1)%nat /\
  ((length argv < 2)%nat -> contacts (run str api argv) = []) /\
  (forall vid, nth_error argv 1 = Some vid ->
     exists middle last,
       map asked (contacts (run str api argv)) = ListTracks vid :: middle ++ last /\
       (forall q, In q middle ->
          q = FindTranscript ["en"] \/ q = FindGenerated ["en"] \/ q = Iterate) /\
       (last = [] \/ exists t, last = [Fetch t])).
Proof.
  split; [|split].
  - destruct (argv_cases argv) as [Hu | [vid Hv]].
    + rewrite (run_usage _ _ _ Hu). cbn. lia.
    + rewrite (run_summary _ _ _ _ Hv), fetched_summary.
      destruct (api vid) as [tl|]; [destruct (selected tl)|]; cbn; lia.
  - intros Hu. rewrite (run_usage _ _ _ Hu). reflexivity.
  - intros vid Hv. rewrite (run_summary _ _ _ _ Hv). unfold summary.
    assert (Hm : forall tl q, In q (map asked (lookups tl)) ->
                 q = FindTranscript ["en"] \/ q = FindGenerated ["en"] \/ q = Iterate).
    { intros tl q Hq. apply in_map_iff in Hq as (c & <- & Hc).
      apply (lookups_asked tl). assumption. }
    destruct (api vid) as [tl|e].
    + destruct (selected tl) as [t|].
      * exists (map asked (lookups tl)), [Fetch t]. split.
        -- destruct (rendered t); cbn; rewrite map_app; reflexivity.
        -- split; [apply (Hm tl) | right; eauto].
      * exists (map asked (lookups tl)), []. split.
        -- cbn. rewrite app_nil_r. reflexivity.
        -- split; [apply (Hm tl) | left; reflexivity].
    + exists [], []. cbn. split; [reflexivity|]. split; [intros q []|left; reflexivity].
Qed.

(** X10: the run depends on the command line through its second element
    only: the script name and any further argument change nothing. *)
Theorem only_first_argument_counts (str : exn -> string) (api : YouTubeTranscriptApi)
    (argv argv' : list string) (vid : string) :
  nth_error argv 1 = Some vid ->
  nth_error argv' 1 = Some vid ->
  run str api argv = run str api argv'.
Proof.
  intros H H'. rewrite (run_summary _ _ _ _ H), (run_summary _ _ _ _ H'). reflexivity.
Qed.

Lemma only_first_argument_counts_witness :
  run sample_str sample_api ["fetch_transcript.py"; "abc123"; "--lang"; "es"]
  = run sample_str sample_api ["python"; "abc123"].
Proof.
  apply (only_first_argument_counts sample_str sample_api
           ["fetch_transcript.py"; "abc123"; "--lang"; "es"] ["python"; "abc123"] "abc123");
    reflexivity.
Defined.

(** X11: called in any world, [get_transcript] never lets an exception
    reach its caller.  It appends exactly one document to standard output
    and either returns (the document is then an array) or raises
    [SystemExit] with status 1 (the document is then an error object); its
    first call to the library lists the tracks of the identifier. *)
Theorem get_transcript_never_raises (str : exn -> string) (api : YouTubeTranscriptApi)
    (vid : string) (w : world) :
  exists j log,
    stdout (snd (get_transcript str api vid w)) = stdout w ++ [j] /\
    requests (snd (get_transcript str api vid w))
    = requests w ++ {| asked := ListTracks vid; raised := exception_of (api vid) |} :: log /\
    ((fst (get_transcript str api vid w) = Normal tt /\ is_array j = true) \/
     (fst (get_transcript str api vid w) = SystemExit 1 /\ has_error_key j = true)).
Proof.
  rewrite get_transcript_summary. cbn [fst snd stdout requests].
  unfold summary. destruct (api vid) as [tl|e]; cbn [exception_of].
  - destruct (selected tl) as [t|].
    + destruct (rendered t) as [document|e] eqn:Hr.
      * destruct (rendered_ok _ _ Hr) as (_ & _ & js & _ & _ & _ & ->).
        eexists. eexists. cbn. split; [reflexivity|]. split; [reflexivity|]. left. auto.
      * eexists. eexists. cbn. split; [reflexivity|]. split; [reflexivity|]. right. auto.
    + eexists. eexists. cbn. split; [reflexivity|]. split; [reflexivity|]. right. auto.
  - eexists. exists []. cbn. split; [reflexivity|]. split; [reflexivity|]. right. auto.
Qed.

(** X12: a run exits with status 0 only after it fetched one track whose
    entries are all of one form and all carry text, duration and start, and
    after [json.dumps] accepted every record; its output is then the array
    of all the encoded records: no entry is skipped on the way to a
    successful exit. *)
Theorem success_requires_all_entries (str : exn -> string) (api : YouTubeTranscriptApi)
    (argv : list string) :
  status (run str api argv) = 0%Z ->
  exists t data rows js,
    fetched (contacts (run str api argv)) = [t] /\
    fetch t = Ok data /\
    same_form data = true /\
    normalize data = Some rows /\
    comprehension dumps rows = Ok js /\
    output (run str api argv) = [JArray js].
Proof.
  intros Hs.
  destruct (argv_cases argv) as [Hu | [vid Hv]].
  - rewrite (run_usage _ _ _ Hu) in Hs. discriminate.
  - rewrite (run_summary _ _ _ _ Hv) in *. rewrite fetched_summary.
    unfold summary in *.
    destruct (api vid) as [tl|e]; [|discriminate].
    destruct (selected tl) as [t|]; [|discriminate].
    destruct (rendered t) as [document|e] eqn:Hr; [|discriminate].
    destruct (rendered_ok _ _ Hr) as (data & rows & js & Hf & Hrows & Hjs & ->).
    apply normalize_of_formatted in Hrows as [Hsf Hn].
    exists t, data, rows, js. auto 8.
Qed.

Lemma success_requires_all_entries_witness :
  exists t data rows js,
    fetched (contacts (run sample_str sample_api ["fetch_transcript.py"; "abc123"])) = [t] /\
    fetch t = Ok data /\
    same_form data = true /\
    normalize data = Some rows /\
    comprehension dumps rows = Ok js /\
    output (run sample_str sample_api ["fetch_transcript.py"; "abc123"]) = [JArray js].
Proof.
  apply (success_requires_all_entries sample_str sample_api
           ["fetch_transcript.py"; "abc123"]).
  reflexivity.
Defined.
